(** * Pilot weather summaries: [backend/app/services/openai_service.py]

    A shallow embedding of [OpenAISummaryService] and the properties of its
    three template builders, its constructor and [generate_summary].

    Python strings are modelled as Rocq strings, one [ascii] per code point,
    which covers the code points 0..255.  The remote completion client is a
    function from requests to outcomes; what the service logs and sends is
    recorded in a trace. *)

From Stdlib Require Import String Ascii List ZArith Bool Arith QArith.
From Stdlib Require Import DecimalString.
Import ListNotations.
Close Scope Q_scope.
Open Scope string_scope.
Open Scope nat_scope.

(** ** The Python builtins the service relies on *)

Module Py.

(** The line feed written [\n] in the source's literals. *)
Definition LF : string := String (ascii_of_nat 10) EmptyString.

Definition squote : ascii := ascii_of_nat 39.
Definition dquote : ascii := ascii_of_nat 34.
Definition backslash : ascii := ascii_of_nat 92.

(** [str.isspace] on one code point below 256. *)
Definition isspace (c : ascii) : bool :=
  let n := nat_of_ascii c in
  ((9 <=? n) && (n <=? 13)) || ((28 <=? n) && (n <=? 32))
  || (n =? 133) || (n =? 160).

Fixpoint lstrip (s : string) : string :=
  match s with
  | EmptyString => EmptyString
  | String c s' => if isspace c then lstrip s' else s
  end.

Fixpoint rstrip (s : string) : string :=
  match s with
  | EmptyString => EmptyString
  | String c s' =>
      match rstrip s' with
      | EmptyString => if isspace c then EmptyString else String c EmptyString
      | r => String c r
      end
  end.

(** [s.strip()] *)
Definition strip (s : string) : string := rstrip (lstrip s).

Fixpoint all_space (s : string) : bool :=
  match s with
  | EmptyString => true
  | String c s' => isspace c && all_space s'
  end.

(** Whether the first, respectively the last, character is white space. *)
Definition starts_space (s : string) : bool :=
  match s with
  | EmptyString => false
  | String c _ => isspace c
  end.

Fixpoint ends_space (s : string) : bool :=
  match s with
  | EmptyString => false
  | String c EmptyString => isspace c
  | String _ s' => ends_space s'
  end.

(** [s.startswith(p)] *)
Definition startswith (s p : string) : bool := String.prefix p s.

(** [needle in hay] *)
Fixpoint contains (needle hay : string) : bool :=
  String.prefix needle hay
  || match hay with
     | EmptyString => false
     | String _ hay' => contains needle hay'
     end.

(** Truth value of an [Optional[str]]: [None] and the empty string are
    false. *)
Definition truthy (a : option string) : bool :=
  match a with
  | None => false
  | Some EmptyString => false
  | Some _ => true
  end.

(** [a or b] *)
Definition or_ (a b : option string) : option string :=
  if truthy a then a else b.

(** The values a report field can hold. *)
Inductive value : Type :=
| VStr (s : string)
| VInt (z : Z)
| VBool (b : bool)
| VNone.

Definition str_of_int (z : Z) : string :=
  NilZero.string_of_int (Z.to_int z).

(** [str(v)], which is also what an f-string field [{v}] inserts. *)
Definition str (v : value) : string :=
  match v with
  | VStr s => s
  | VInt z => str_of_int z
  | VBool true => "True"
  | VBool false => "False"
  | VNone => "None"
  end.

Definition hexdigit (n : nat) : ascii :=
  if n <? 10 then ascii_of_nat (48 + n) else ascii_of_nat (87 + n).

(** [str.isprintable] on one code point below 256. *)
Definition isprintable (c : ascii) : bool :=
  let n := nat_of_ascii c in
  ((32 <=? n) && (n <=? 126)) || ((161 <=? n) && negb (n =? 173)).

Definition repr_char (q c : ascii) : string :=
  let n := nat_of_ascii c in
  if Ascii.eqb c q || Ascii.eqb c backslash then
    String backslash (String c EmptyString)
  else if n =? 9 then "\t"
  else if n =? 10 then "\n"
  else if n =? 13 then "\r"
  else if isprintable c then String c EmptyString
  else String backslash
         (String "x" (String (hexdigit (n / 16))
                        (String (hexdigit (n mod 16)) EmptyString))).

Fixpoint occurs (c : ascii) (s : string) : bool :=
  match s with
  | EmptyString => false
  | String c' s' => Ascii.eqb c c' || occurs c s'
  end.

Fixpoint flat_map_chars (f : ascii -> string) (s : string) : string :=
  match s with
  | EmptyString => EmptyString
  | String c s' => f c ++ flat_map_chars f s'
  end.

(** [repr(s)] for a string: double quotes only when the text holds a
    single quote and no double quote. *)
Definition repr_str (s : string) : string :=
  let q := if occurs squote s && negb (occurs dquote s)
           then dquote else squote in
  String q (flat_map_chars (repr_char q) s ++ String q EmptyString).

Definition repr (v : value) : string :=
  match v with
  | VStr s => repr_str s
  | _ => str v
  end.

(** A [dict] with string keys, in insertion order. *)
Definition dict : Type := list (string * value).

Fixpoint lookup (d : dict) (k : string) : option value :=
  match d with
  | [] => None
  | (k', v) :: d' => if String.eqb k' k then Some v else lookup d' k
  end.

(** [d.get(k, default)] with a string default. *)
Definition get (d : dict) (k : string) (default : string) : value :=
  match lookup d k with
  | Some v => v
  | None => VStr default
  end.

Fixpoint join (sep : string) (l : list string) : string :=
  match l with
  | [] => EmptyString
  | [x] => x
  | x :: l' => x ++ sep ++ join sep l'
  end.

(** [str(d)] for a dict, as an f-string field [{d}] inserts it. *)
Definition str_dict (d : dict) : string :=
  "{" ++ join ", " (map (fun kv => repr_str (fst kv) ++ ": " ++ repr (snd kv)) d)
      ++ "}".

End Py.

(** ** The template builders

    Each builder dispatches on [report_type] with [==] on strings and
    interpolates fields of [report_data] with [dict.get] and a literal
    default.  Line breaks in the source's literals are written [LF]. *)

Abbreviation LF := Py.LF.

(** [_generate_fallback_summary(report_type, report_data)] *)
Definition _generate_fallback_summary (report_type : string) (report_data : Py.dict) : string :=
  if (report_type =? "metar")%string then
    "METAR for " ++ Py.str (Py.get report_data "station" "unknown station") ++ "." ++ LF ++
    LF ++
    "This is automated weather data. Check the raw report for details." ++ LF ++
    LF ++
    "Exercise caution and verify conditions before flight."
  else
  if (report_type =? "taf")%string then
    "TAF forecast for " ++ Py.str (Py.get report_data "station" "unknown station") ++ "." ++ LF ++
    LF ++
    "Consult the raw forecast for detailed weather predictions." ++ LF ++
    LF ++
    "Plan your flight carefully considering all available information."
  else
  if (report_type =? "pirep")%string then
    "Pilot report near " ++ Py.str (Py.get report_data "location" "unknown location") ++ "." ++ LF ++
    LF ++
    "Review the raw report for specific conditions reported." ++ LF ++
    LF ++
    "Consider these pilot observations in your flight planning."
  else
  "Weather information available." ++ LF ++
  LF ++
  "Refer to the raw data for complete details." ++ LF ++
  LF ++
  "Ensure thorough preflight planning.".

(** [_get_system_prompt(report_type)] *)
Definition _get_system_prompt (report_type : string) : string :=
  let base_prompt :=
    "You are an expert aviation weather briefing assistant providing detailed, accurate summaries for pilots. Your summaries should be comprehensive yet clear, focusing on operational impact and flight safety. " in
  if (report_type =? "metar")%string then
    base_prompt ++ "Analyze and summarize the METAR in plain language with a focus on flight safety. Provide a detailed assessment of ceiling, visibility, winds, pressure, and significant weather phenomena. Include implications for VFR/IFR operations and mention any concerning trends if apparent."
  else
  if (report_type =? "taf")%string then
    base_prompt ++ "Analyze the TAF forecast in detail, highlighting all operationally significant changes in weather conditions over the forecast period. Break down the forecast into clear time segments, focusing on changing IFR/VFR conditions, wind shifts, and hazardous weather. Include practical recommendations for flight planning."
  else
  if (report_type =? "pirep")%string then
    base_prompt ++ "Provide a comprehensive analysis of this pilot report focusing on turbulence, icing, cloud tops, and other flight safety hazards. Be specific about altitude-dependent conditions, severity of hazards, and potential impact on different aircraft types. Include practical avoidance strategies when appropriate."
  else
  if (report_type =? "sigmet")%string then
    base_prompt ++ "Thoroughly analyze this SIGMET emphasizing the hazard, affected area, altitudes, timing, and movement. Provide clear details about the safety implications for flights in or near the affected area, and suggest potential mitigation strategies."
  else
  base_prompt ++ "Provide a thorough and detailed analysis of this aviation weather information focusing on all flight safety implications and operational considerations.".

(** [_create_prompt_for_report(report_type, report_data)] *)
Definition _create_prompt_for_report (report_type : string) (report_data : Py.dict) : string :=
  if (report_type =? "metar")%string then
    "Create a detailed, pilot-friendly analysis of this METAR for " ++ Py.str (Py.get report_data "station" "unknown station") ++ ":" ++ LF ++
    "Raw METAR: " ++ Py.str (Py.get report_data "raw_text" "No raw data available") ++ LF ++
    LF ++
    "Include the following in your summary:" ++ LF ++
    "1. Flight category (VFR/MVFR/IFR/LIFR) with clear explanation of the determining factors" ++ LF ++
    "2. Ceiling and visibility in plain language with operational impact" ++ LF ++
    "3. Detailed wind conditions including gusts and crosswind components if significant" ++ LF ++
    "4. All precipitation and weather phenomena with severity and implications" ++ LF ++
    "5. Temperature/dewpoint analysis including potential for icing or fog formation" ++ LF ++
    "6. Pressure trends and their significance" ++ LF ++
    "7. Any specific hazards or concerns evident from the report" ++ LF ++
    LF ++
    "Format your response with clear sections and conclude with specific operational recommendations."
  else
  if (report_type =? "taf")%string then
    "Create a detailed, pilot-friendly analysis of this TAF forecast for " ++ Py.str (Py.get report_data "station" "unknown station") ++ ":" ++ LF ++
    "Raw TAF: " ++ Py.str (Py.get report_data "raw_text" "No raw data available") ++ LF ++
    LF ++
    "Include the following in your analysis:" ++ LF ++
    "1. Overall summary of weather evolution during the forecast period" ++ LF ++
    "2. Detailed breakdown of each significant time period in chronological order" ++ LF ++
    "3. Clear identification of all IFR or MVFR conditions with timing and duration" ++ LF ++
    "4. Comprehensive wind analysis including direction shifts and gusting conditions" ++ LF ++
    "5. Detailed description of all forecast weather phenomena and their intensity" ++ LF ++
    "6. Identification of the most challenging period(s) during the forecast" ++ LF ++
    "7. Specific operational considerations for takeoff, en route, and landing phases" ++ LF ++
    LF ++
    "Structure your response with clearly organized sections by time period, and conclude with practical flight planning recommendations."
  else
  if (report_type =? "pirep")%string then
    "Create a detailed, pilot-friendly analysis of this Pilot Report:" ++ LF ++
    "Raw PIREP: " ++ Py.str (Py.get report_data "raw_text" "No raw data available") ++ LF ++
    LF ++
    "Include the following in your analysis:" ++ LF ++
    "1. Aircraft type, precise location, and altitude of the report" ++ LF ++
    "2. Detailed assessment of turbulence including type, intensity, and vertical extent" ++ LF ++
    "3. Comprehensive icing information including type, severity, and altitude layer" ++ LF ++
    "4. Thorough cloud information including bases, tops, layers, and coverage" ++ LF ++
    "5. Visibility conditions and any obscuring phenomena" ++ LF ++
    "6. Time context of the report and its current relevance" ++ LF ++
    "7. Correlation with forecast conditions if apparent" ++ LF ++
    LF ++
    "Format your response with clear sections and conclude with specific operational recommendations for pilots in the area."
  else
  if (report_type =? "sigmet")%string then
    "Create a detailed, pilot-friendly analysis of this SIGMET:" ++ LF ++
    "Raw SIGMET: " ++ Py.str (Py.get report_data "raw_text" "No raw data available") ++ LF ++
    LF ++
    "Include the following in your analysis:" ++ LF ++
    "1. Precise identification of the hazard type and its severity" ++ LF ++
    "2. Detailed geographic description of the affected area with key landmarks/waypoints" ++ LF ++
    "3. Comprehensive altitude range information with flight level context" ++ LF ++
    "4. Specific validity timeframe and remaining duration" ++ LF ++
    "5. Movement, intensification, or dissipation trends of the hazard" ++ LF ++
    "6. Potential impact on different phases of flight and aircraft categories" ++ LF ++
    "7. Correlation with other weather data if apparent" ++ LF ++
    LF ++
    "Structure your response with clear sections and conclude with specific avoidance or mitigation strategies."
  else
  "Please provide a comprehensive analysis of this aviation weather information with detailed operational implications for pilots: " ++ Py.str_dict report_data.

(** ** Exceptions, the trace and the remote client *)

(** An instance of [Exception]: its class name and its message. *)
Inductive Exn : Type :=
| Exception (cls : string) (msg : string).

Inductive outcome (A : Type) : Type :=
| Return (a : A)
| Raise (e : Exn).
Arguments Return {A} a.
Arguments Raise {A} e.

(** The arguments of [chat.completions.create]. *)
Record request : Type := {
  req_model : string;
  req_messages : list (string * string);   (* role, content *)
  req_temperature : Q;
  req_max_tokens : Z
}.

(** What [chat.completions.create] returns: candidate completions, each
    with a message whose [content] is a string or [None]. *)
Record message : Type := { content : option string }.
Record choice : Type := { choice_message : message }.
Record response : Type := { choices : list choice }.

(** The awaited call either returns a response object (or [None]) or
    raises. *)
Definition AsyncOpenAI : Type := request -> outcome (option response).

Inductive level : Type := INFO | WARNING | ERROR.

(** The [logger] calls of the service, by their format string's fields. *)
Inductive log_record : Type :=
| KeyNotConfigured
| Generating (report_type model : string)
| Generated (report_type : string)
| NoContent (report_type : string)
| ErrorGenerating (report_type : string) (e : Exn).

Inductive event : Type :=
| Log (l : level) (r : log_record)
| Create (req : request).

(** Computations that log, call the client and may raise. *)
Definition M (A : Type) : Type := list event * outcome A.

Definition ret {A : Type} (a : A) : M A := ([], Return a).

Definition raise {A : Type} (e : Exn) : M A := ([], Raise e).

Definition bind {A B : Type} (m : M A) (k : A -> M B) : M B :=
  match m with
  | (t, Return a) => let (t', r) := k a in ((t ++ t')%list, r)
  | (t, Raise e) => (t, Raise e)
  end.

Definition emit (ev : event) : M unit := ([ev], Return tt).

(** [try: body  except Exception as e: handler e] *)
Definition try_except {A : Type} (body : M A) (handler : Exn -> M A) : M A :=
  match body with
  | (t, Return a) => (t, Return a)
  | (t, Raise e) => let (t', r) := handler e in ((t ++ t')%list, r)
  end.

Notation "x <- m ;; k" := (bind m (fun x => k))
  (at level 61, m at next level, right associativity).
Notation "m ;; k" := (bind m (fun _ => k))
  (at level 61, right associativity).

(** [await client.chat.completions.create(...)] *)
Definition create (client : AsyncOpenAI) (req : request) : M (option response) :=
  ([Create req], client req).

(** [content.strip()], an [AttributeError] when [content] is [None]. *)
Definition content_strip (c : option string) : M string :=
  match c with
  | Some s => ret (Py.strip s)
  | None =>
      raise (Exception "AttributeError"
               "'NoneType' object has no attribute 'strip'")
  end.

(** ** The service *)

Record OpenAISummaryService : Type := {
  api_key : string;
  client : AsyncOpenAI;
  model : string
}.

(** [os.environ], names to values. *)
Definition environ : Type := list (string * string).

Fixpoint environ_get (env : environ) (k : string) : option string :=
  match env with
  | [] => None
  | (k', v) :: env' => if String.eqb k' k then Some v else environ_get env' k
  end.

(** [core.config.settings], of which the service reads one field. *)
Record Settings : Type := { OPENAI_API_KEY : option string }.

(** The credential [api_key or os.environ.get(...) or settings.OPENAI_API_KEY]. *)
Definition resolve_key (env : environ) (settings : Settings)
    (api_key : option string) : option string :=
  Py.or_ (Py.or_ api_key (environ_get env "OPENAI_API_KEY"))
         (OPENAI_API_KEY settings).

(** [OpenAISummaryService.__init__(api_key)]; [connect] is the
    [AsyncOpenAI] constructor. *)
Definition __init__ (connect : string -> AsyncOpenAI) (env : environ)
    (settings : Settings) (api_key : option string) : OpenAISummaryService :=
  let key :=
    match resolve_key env settings api_key with
    | Some k =>
        if negb (Py.truthy (Some k)) || Py.startswith k "sk-your-"
        then EmptyString else k
    | None => EmptyString
    end in
  {| api_key := key; client := connect key; model := "gpt-4o" |}.

(** [generate_summary(report_type, report_data)] *)
Definition generate_summary (self : OpenAISummaryService)
    (report_type : string) (report_data : Py.dict) : M (option string) :=
  if negb (Py.truthy (Some (api_key self))) then
    emit (Log WARNING KeyNotConfigured) ;;
    ret None
  else
    try_except
      (let prompt := _create_prompt_for_report report_type report_data in
       emit (Log INFO (Generating report_type (model self))) ;;
       resp <- create (client self)
                 {| req_model := model self;
                    req_messages :=
                      [("system", _get_system_prompt report_type);
                       ("user", prompt)];
                    req_temperature := (3 # 10)%Q;
                    req_max_tokens := 600%Z |} ;;
       match resp with
       | Some {| choices := c :: _ |} =>
           summary <- content_strip (content (choice_message c)) ;;
           emit (Log INFO (Generated report_type)) ;;
           ret (Some summary)
       | _ =>
           emit (Log WARNING (NoContent report_type)) ;;
           ret None
       end)
      (fun e =>
         emit (Log ERROR (ErrorGenerating report_type e)) ;;
         ret (Some (_generate_fallback_summary report_type report_data))).

(** The remote calls a run made. *)
Fixpoint remote_calls (t : list event) : list request :=
  match t with
  | [] => []
  | Create req :: t' => req :: remote_calls t'
  | Log _ _ :: t' => remote_calls t'
  end.

(** The report kinds that have templates of their own. *)
Definition known_kinds : list string := ["metar"; "taf"; "pirep"; "sigmet"].

(** The request [generate_summary] sends for a report. *)
Definition summary_request (self : OpenAISummaryService)
    (report_type : string) (report_data : Py.dict) : request :=
  {| req_model := model self;
     req_messages :=
       [("system", _get_system_prompt report_type);
        ("user", _create_prompt_for_report report_type report_data)];
     req_temperature := (3 # 10)%Q;
     req_max_tokens := 600%Z |}.

(** The persona phrases and the focus of each kind, as the design's table
    of system instructions names them. *)
Definition persona_phrases : list string :=
  ["expert aviation weather briefing assistant";
   "comprehensive yet clear";
   "operational impact and flight safety"].

Definition focus_phrases (report_kind : string) : list string :=
  if (report_kind =? "metar")%string then
    ["METAR"; "ceiling"; "visibility"; "winds"; "pressure"; "phenomena";
     "VFR/IFR"; "trends"]
  else if (report_kind =? "taf")%string then
    ["TAF"; "time segments"; "IFR/VFR"; "wind shifts"; "hazardous weather";
     "flight planning"]
  else if (report_kind =? "pirep")%string then
    ["pilot report"; "turbulence"; "icing"; "cloud tops"; "altitude";
     "aircraft types"; "avoidance strategies"]
  else if (report_kind =? "sigmet")%string then
    ["SIGMET"; "hazard"; "affected area"; "altitudes"; "timing"; "movement";
     "safety implications"; "mitigation strategies"]
  else [].

(** A service whose client answers every request the same way. *)
Definition service_with (key : string) (answer : outcome (option response))
    : OpenAISummaryService :=
  {| api_key := key; client := fun _ => answer; model := "gpt-4o" |}.

(** A response with one candidate bearing [text]. *)
Definition one_choice (text : option string) : response :=
  {| choices := [ {| choice_message := {| content := text |} |} ] |}.

(** The module's instance, [openai_service = OpenAISummaryService()]: built
    without an explicit key. *)
Definition openai_service (connect : string -> AsyncOpenAI) (env : environ)
    (settings : Settings) : OpenAISummaryService :=
  __init__ connect env settings None.

Example strip_clear :
  Py.strip " Clear skies expected. " = "Clear skies expected.".
Proof. reflexivity. Qed.

Example repr_plain : Py.repr_str "KSEA" = "'KSEA'".
Proof. reflexivity. Qed.

Example str_dict_one :
  Py.str_dict [("station", Py.VStr "KSEA"); ("n", Py.VInt (-12))]
  = "{'station': 'KSEA', 'n': -12}".
Proof. reflexivity. Qed.

(** ** Strings *)

Lemma sapp_assoc (a b c : string) : (a ++ b) ++ c = a ++ b ++ c.
Proof. induction a as [|x a IH]; simpl; [reflexivity | now rewrite IH]. Qed.

Lemma sapp_nil_r (a : string) : a ++ EmptyString = a.
Proof. induction a as [|x a IH]; simpl; [reflexivity | now rewrite IH]. Qed.

Lemma prefix_split (p s : string) :
  String.prefix p s = true -> exists rest, s = p ++ rest.
Proof.
  revert s; induction p as [|c p IH]; intros s H.
  - exists s; reflexivity.
  - destruct s as [|c' s]; simpl in H; [discriminate|].
    destruct (ascii_dec c c') as [->|]; [|discriminate].
    destruct (IH s H) as [rest ->]. exists rest; reflexivity.
Qed.

Lemma contains_split (needle hay : string) :
  Py.contains needle hay = true ->
  exists before after, hay = before ++ needle ++ after.
Proof.
  induction hay as [|c hay IH]; intros H.
  - destruct needle; simpl in H; [|discriminate].
    exists EmptyString, EmptyString; reflexivity.
  - cbn [Py.contains] in H. apply orb_true_iff in H as [H|H].
    + destruct (prefix_split needle (String c hay) H) as [rest E].
      exists EmptyString, rest; exact E.
    + destruct (IH H) as (b & a & ->).
      exists (String c b), a; reflexivity.
Qed.

(** ** Dispatch on the report kind *)

Lemma unknown_kind_eqb (rt : string) :
  ~ In rt known_kinds ->
  (rt =? "metar")%string = false /\ (rt =? "taf")%string = false /\
  (rt =? "pirep")%string = false /\ (rt =? "sigmet")%string = false.
Proof.
  intros H; repeat split; apply String.eqb_neq; intros ->; apply H; simpl; auto.
Qed.

Ltac known_cases H :=
  simpl in H;
  destruct H as [H|[H|[H|[H|[]]]]]; subst.

Ltac pick_branch f :=
  cbv beta iota delta [f String.eqb Ascii.eqb Bool.eqb].

Lemma neq_by_eqb (a b : string) : (a =? b)%string = false -> a <> b.
Proof. apply String.eqb_neq. Qed.

Ltac differ := apply neq_by_eqb; vm_compute; reflexivity.

(** ** The system instruction *)

(** C9.  For each of the four report kinds the system instruction, a
    function of the kind alone, begins with the shared persona preamble,
    holds the persona's phrases and the phrases of that kind's focus, and is
    the instruction of no other kind nor of an unrecognized one. *)
Theorem system_prompt_known_kind (rt : string) :
  In rt known_kinds ->
  Py.startswith (_get_system_prompt rt)
    "You are an expert aviation weather briefing assistant providing detailed, accurate summaries for pilots. Your summaries should be comprehensive yet clear, focusing on operational impact and flight safety. "
  = true
  /\ forallb (fun p => Py.contains p (_get_system_prompt rt))
       (persona_phrases ++ focus_phrases rt)%list = true
  /\ focus_phrases rt <> []
  /\ (forall k, In k known_kinds -> k <> rt ->
      _get_system_prompt k <> _get_system_prompt rt)
  /\ (forall other, ~ In other known_kinds ->
      _get_system_prompt other <> _get_system_prompt rt).
Proof.
  intros H.
  assert (G : forall other, ~ In other known_kinds ->
              _get_system_prompt other = _get_system_prompt "generic").
  { intros other Ho.
    destruct (unknown_kind_eqb other Ho) as (E1 & E2 & E3 & E4).
    unfold _get_system_prompt. rewrite E1, E2, E3, E4. reflexivity. }
  known_cases H.
  all: split; [vm_compute; reflexivity|].
  all: split; [vm_compute; reflexivity|].
  all: split; [vm_compute; discriminate|].
  all: split; [|intros other Ho; rewrite (G other Ho); differ].
  all: intros k Hk Hne; known_cases Hk; try (exfalso; apply Hne; reflexivity);
    differ.
Qed.

Lemma system_prompt_known_kind_witness :
  In "taf" known_kinds /\
  forallb (fun p => Py.contains p (_get_system_prompt "taf"))
    (persona_phrases ++ focus_phrases "taf")%list = true.
Proof.
  split; [simpl; auto|].
  apply (system_prompt_known_kind "taf"). simpl; auto.
Defined.

(** ** Unrecognized kinds *)

(** C10.  Dispatch is by exact, case-sensitive equality with the lower-case
    names: a report type that is none of the four names, such as [METAR] or
    [Metar], gets the generic system instruction, the generic user
    instruction and the generic fallback text, and these are the output of
    no kind-specific template. *)
Theorem unknown_kind_generic (rt : string) (d : Py.dict) :
  ~ In rt known_kinds ->
  _get_system_prompt rt =
    "You are an expert aviation weather briefing assistant providing detailed, accurate summaries for pilots. Your summaries should be comprehensive yet clear, focusing on operational impact and flight safety. "
    ++ "Provide a thorough and detailed analysis of this aviation weather information focusing on all flight safety implications and operational considerations."
  /\ _create_prompt_for_report rt d =
       "Please provide a comprehensive analysis of this aviation weather information with detailed operational implications for pilots: "
       ++ Py.str_dict d
  /\ _generate_fallback_summary rt d =
       "Weather information available." ++ LF ++ LF
       ++ "Refer to the raw data for complete details." ++ LF ++ LF
       ++ "Ensure thorough preflight planning."
  /\ (forall k, In k known_kinds ->
        _get_system_prompt rt <> _get_system_prompt k)
  /\ (forall k d', In k known_kinds ->
        _create_prompt_for_report rt d <> _create_prompt_for_report k d')
  /\ (forall k d', In k ["metar"; "taf"; "pirep"] ->
        _generate_fallback_summary rt d <> _generate_fallback_summary k d')
  /\ ~ In "METAR" known_kinds /\ ~ In "Metar" known_kinds.
Proof.
  intros H.
  destruct (unknown_kind_eqb rt H) as (E1 & E2 & E3 & E4).
  assert (S : _get_system_prompt rt = _get_system_prompt "generic").
  { unfold _get_system_prompt. rewrite E1, E2, E3, E4. reflexivity. }
  assert (U : _create_prompt_for_report rt d =
              _create_prompt_for_report "generic" d).
  { unfold _create_prompt_for_report. rewrite E1, E2, E3, E4. reflexivity. }
  assert (F : _generate_fallback_summary rt d =
              _generate_fallback_summary "generic" d).
  { unfold _generate_fallback_summary. rewrite E1, E2, E3. reflexivity. }
  split; [rewrite S; reflexivity|].
  split; [rewrite U; reflexivity|].
  split; [rewrite F; reflexivity|].
  split; [intros k Hk; rewrite S; known_cases Hk; differ|].
  split.
  { intros k d' Hk; rewrite U; known_cases Hk;
      pick_branch _create_prompt_for_report; simpl; discriminate. }
  split.
  { intros k d' Hk; rewrite F.
    simpl in Hk; destruct Hk as [Hk|[Hk|[Hk|[]]]]; subst;
      pick_branch _generate_fallback_summary; simpl; discriminate. }
  split; simpl; intuition discriminate.
Qed.

Lemma unknown_kind_generic_witness :
  ~ In "METAR" known_kinds /\
  _generate_fallback_summary "METAR" [("station", Py.VStr "KSEA")] =
    "Weather information available." ++ LF ++ LF
    ++ "Refer to the raw data for complete details." ++ LF ++ LF
    ++ "Ensure thorough preflight planning.".
Proof.
  assert (H : ~ In "METAR" known_kinds) by (simpl; intuition discriminate).
  split; [exact H|].
  apply (unknown_kind_generic "METAR" [("station", Py.VStr "KSEA")] H).
Defined.

(** C7.  For [unknown-type], as for any unrecognized kind, with the empty
    mapping the user instruction is the generic sentence followed by the
    text of the empty mapping, and the fallback text is the generic
    paragraph: the header, the referral to the raw data and the
    preflight-planning admonition. *)
Theorem unknown_kind_empty_data (rt : string) :
  ~ In rt known_kinds ->
  _create_prompt_for_report rt [] =
    "Please provide a comprehensive analysis of this aviation weather information with detailed operational implications for pilots: {}"
  /\ _generate_fallback_summary rt [] =
       "Weather information available." ++ LF ++ LF
       ++ "Refer to the raw data for complete details." ++ LF ++ LF
       ++ "Ensure thorough preflight planning.".
Proof.
  intros H.
  destruct (unknown_kind_eqb rt H) as (E1 & E2 & E3 & E4).
  unfold _create_prompt_for_report, _generate_fallback_summary.
  rewrite E1, E2, E3, E4. split; reflexivity.
Qed.

Lemma unknown_kind_empty_data_witness :
  ~ In "unknown-type" known_kinds /\
  _create_prompt_for_report "unknown-type" [] =
    "Please provide a comprehensive analysis of this aviation weather information with detailed operational implications for pilots: {}".
Proof.
  assert (H : ~ In "unknown-type" known_kinds)
    by (simpl; intuition discriminate).
  split; [exact H|].
  apply (unknown_kind_empty_data "unknown-type" H).
Defined.

(** ** The fallback text *)

(** C1.  The fallback builder has templates of its own for [metar], [taf]
    and [pirep] only: for [sigmet] it returns the generic paragraph, the
    text of an unrecognized kind, although the system and the user
    instruction builders both have a [sigmet] template. *)
Theorem fallback_sigmet_is_generic (d : Py.dict) :
  _generate_fallback_summary "sigmet" d =
    _generate_fallback_summary "unknown-type" []
  /\ _generate_fallback_summary "sigmet" d =
       "Weather information available." ++ LF ++ LF
       ++ "Refer to the raw data for complete details." ++ LF ++ LF
       ++ "Ensure thorough preflight planning."
  /\ _get_system_prompt "sigmet" <> _get_system_prompt "unknown-type"
  /\ _create_prompt_for_report "sigmet" d <>
       _create_prompt_for_report "unknown-type" d.
Proof.
  split; [reflexivity|]. split; [reflexivity|].
  split; [differ|].
  pick_branch _create_prompt_for_report; simpl; discriminate.
Qed.

(** ** The user instruction *)

(** C6.  For each of the four kinds the user instruction is a fixed text
    around the [raw_text] field: whatever else the mapping holds, the field's
    value stands there verbatim when the key is present and the placeholder
    [No raw data available] when it is absent.  The builder is total: a
    missing key never makes it fail, and on the empty mapping it yields the
    text with the placeholder. *)
Theorem user_prompt_embeds_raw_text (rt : string) (d : Py.dict) :
  In rt known_kinds ->
  (exists pre post,
     forall d', Py.lookup d' "station" = Py.lookup d "station" ->
       (forall v, Py.lookup d' "raw_text" = Some v ->
          _create_prompt_for_report rt d' = pre ++ Py.str v ++ post)
       /\ (forall t, Py.lookup d' "raw_text" = Some (Py.VStr t) ->
             _create_prompt_for_report rt d' = pre ++ t ++ post)
       /\ (Py.lookup d' "raw_text" = None ->
             _create_prompt_for_report rt d' =
               pre ++ "No raw data available" ++ post))
  /\ Py.contains "No raw data available" (_create_prompt_for_report rt [])
     = true.
Proof.
  intros H.
  split; [|known_cases H; vm_compute; reflexivity].
  assert (G : exists pre post,
    forall d', Py.lookup d' "station" = Py.lookup d "station" ->
      _create_prompt_for_report rt d' =
        pre ++ Py.str (Py.get d' "raw_text" "No raw data available") ++ post).
  { known_cases H; pick_branch _create_prompt_for_report.
    - exists ("Create a detailed, pilot-friendly analysis of this METAR for "
              ++ Py.str (Py.get d "station" "unknown station") ++ ":" ++ LF
              ++ "Raw METAR: ").
      eexists. intros d' E. unfold Py.get at 1 3. rewrite E.
      rewrite !sapp_assoc. reflexivity.
    - exists ("Create a detailed, pilot-friendly analysis of this TAF forecast for "
              ++ Py.str (Py.get d "station" "unknown station") ++ ":" ++ LF
              ++ "Raw TAF: ").
      eexists. intros d' E. unfold Py.get at 1 3. rewrite E.
      rewrite !sapp_assoc. reflexivity.
    - exists ("Create a detailed, pilot-friendly analysis of this Pilot Report:"
              ++ LF ++ "Raw PIREP: ").
      eexists. intros d' E. reflexivity.
    - exists ("Create a detailed, pilot-friendly analysis of this SIGMET:"
              ++ LF ++ "Raw SIGMET: ").
      eexists. intros d' E. reflexivity. }
  destruct G as (pre & post & G). exists pre, post. intros d' E.
  rewrite (G d' E). unfold Py.get.
  split; [|split].
  - intros v ->. reflexivity.
  - intros t ->. reflexivity.
  - intros ->. reflexivity.
Qed.

Lemma user_prompt_embeds_raw_text_witness :
  In "metar" known_kinds /\
  exists pre post,
    _create_prompt_for_report "metar"
      [("station", Py.VStr "KSEA"); ("raw_text", Py.VStr "KSEA 041753Z")]
    = pre ++ "KSEA 041753Z" ++ post.
Proof.
  assert (H : In "metar" known_kinds) by (simpl; auto).
  split; [exact H|].
  destruct (user_prompt_embeds_raw_text "metar"
              [("station", Py.VStr "KSEA")] H) as [(pre & post & G) _].
  exists pre, post.
  apply (G [("station", Py.VStr "KSEA"); ("raw_text", Py.VStr "KSEA 041753Z")]);
    reflexivity.
Defined.

(** ** Trimming *)

Lemma lstrip_split (s : string) :
  exists l, s = l ++ Py.lstrip s /\ Py.all_space l = true
            /\ Py.starts_space (Py.lstrip s) = false.
Proof.
  induction s as [|c s (l & E & A & N)].
  - exists EmptyString; repeat split.
  - simpl. destruct (Py.isspace c) eqn:C.
    + exists (String c l). simpl. rewrite C, A, <- E. repeat split. exact N.
    + exists EmptyString. simpl. repeat split. exact C.
Qed.

Lemma rstrip_split (s : string) :
  exists r, s = Py.rstrip s ++ r /\ Py.all_space r = true
            /\ Py.ends_space (Py.rstrip s) = false.
Proof.
  induction s as [|c s (r & E & A & N)].
  - exists EmptyString; repeat split.
  - simpl. destruct (Py.rstrip s) as [|x y] eqn:R.
    + simpl in E. subst r. destruct (Py.isspace c) eqn:C.
      * exists (String c s). simpl. rewrite C, A. repeat split.
      * exists s. simpl. repeat split; assumption.
    + exists r. split; [simpl; f_equal; exact E|]. split; [exact A|].
      exact N.
Qed.

Lemma rstrip_starts (s : string) :
  Py.starts_space s = false -> Py.starts_space (Py.rstrip s) = false.
Proof.
  destruct s as [|c s]; [reflexivity|]. simpl. intros C.
  destruct (Py.rstrip s); [rewrite C|]; simpl; exact C.
Qed.

Lemma strip_split (t : string) :
  exists l r, t = l ++ Py.strip t ++ r
              /\ Py.all_space l = true /\ Py.all_space r = true
              /\ Py.starts_space (Py.strip t) = false
              /\ Py.ends_space (Py.strip t) = false.
Proof.
  destruct (lstrip_split t) as (l & El & Al & Nl).
  destruct (rstrip_split (Py.lstrip t)) as (r & Er & Ar & Nr).
  exists l, r. unfold Py.strip. rewrite <- Er.
  repeat split; auto using rstrip_starts.
Qed.

(** ** [generate_summary] *)

Lemma truthy_nonempty (k : string) :
  k <> EmptyString -> Py.truthy (Some k) = true.
Proof. destruct k; [intros H; now elim H | reflexivity]. Qed.

(** With a credential, a run logs, sends the one request and ends by the
    shape of the client's answer. *)
Lemma generate_summary_configured (self : OpenAISummaryService)
    (rt : string) (d : Py.dict) :
  api_key self <> EmptyString ->
  generate_summary self rt d =
    let req := summary_request self rt d in
    let started := [Log INFO (Generating rt (model self)); Create req] in
    let failed e :=
      ((started ++ [Log ERROR (ErrorGenerating rt e)])%list,
       Return (Some (_generate_fallback_summary rt d))) in
    match client self req with
    | Raise e => failed e
    | Return (Some {| choices := c :: _ |}) =>
        match content (choice_message c) with
        | Some s =>
            ((started ++ [Log INFO (Generated rt)])%list,
             Return (Some (Py.strip s)))
        | None =>
            failed (Exception "AttributeError"
                      "'NoneType' object has no attribute 'strip'")
        end
    | Return _ =>
        ((started ++ [Log WARNING (NoContent rt)])%list, Return None)
    end.
Proof.
  intros K. unfold generate_summary. rewrite (truthy_nonempty _ K).
  cbv zeta. unfold summary_request, create, try_except, bind, emit, ret.
  cbn [negb].
  destruct (client self _) as [[[[|[[[s|]]] l]]|]|e]; reflexivity.
Qed.

(** C4.  Without a credential [generate_summary] returns [None] for every
    report type and data, and its run holds no call of the remote client:
    it only logs the warning. *)
Theorem generate_summary_unconfigured (self : OpenAISummaryService)
    (rt : string) (d : Py.dict) :
  api_key self = EmptyString ->
  snd (generate_summary self rt d) = Return None
  /\ remote_calls (fst (generate_summary self rt d)) = []
  /\ fst (generate_summary self rt d) = [Log WARNING KeyNotConfigured].
Proof.
  intros K. unfold generate_summary. rewrite K. repeat split.
Qed.

Lemma generate_summary_unconfigured_witness :
  api_key (service_with EmptyString (Return (Some (one_choice (Some "VFR")))))
    = EmptyString
  /\ snd (generate_summary
            (service_with EmptyString (Return (Some (one_choice (Some "VFR")))))
            "metar" [("station", Py.VStr "KSEA")]) = Return None.
Proof.
  split; [reflexivity|].
  apply (generate_summary_unconfigured
           (service_with EmptyString (Return (Some (one_choice (Some "VFR")))))
           "metar" [("station", Py.VStr "KSEA")]).
  reflexivity.
Defined.

(** C3.  With a credential, when the remote call raises, the exception does
    not leave [generate_summary]: it returns the fallback text of that report
    type and data, after the one call.  For [metar] and the station [KSEA]
    that text starts with [METAR for KSEA.] and holds [Exercise caution]. *)
Theorem generate_summary_remote_raises (self : OpenAISummaryService)
    (rt : string) (d : Py.dict) (e : Exn) :
  api_key self <> EmptyString ->
  client self (summary_request self rt d) = Raise e ->
  snd (generate_summary self rt d)
    = Return (Some (_generate_fallback_summary rt d))
  /\ remote_calls (fst (generate_summary self rt d))
     = [summary_request self rt d]
  /\ Py.startswith
       (_generate_fallback_summary "metar" [("station", Py.VStr "KSEA")])
       "METAR for KSEA." = true
  /\ Py.contains "Exercise caution"
       (_generate_fallback_summary "metar" [("station", Py.VStr "KSEA")])
     = true.
Proof.
  intros K R. rewrite (generate_summary_configured self rt d K).
  cbv zeta. rewrite R. repeat split.
Qed.

Lemma generate_summary_remote_raises_witness :
  snd (generate_summary
         (service_with "sk-live" (Raise (Exception "APIConnectionError" "down")))
         "metar" [("station", Py.VStr "KSEA")])
  = Return (Some (_generate_fallback_summary "metar"
                    [("station", Py.VStr "KSEA")])).
Proof.
  apply (generate_summary_remote_raises
           (service_with "sk-live"
              (Raise (Exception "APIConnectionError" "down")))
           "metar" [("station", Py.VStr "KSEA")]
           (Exception "APIConnectionError" "down")).
  - discriminate.
  - reflexivity.
Defined.

(** C5.  With a credential, when the remote call returns a response whose
    first choice bears a text, [generate_summary] returns that text trimmed:
    the text is the result between two runs of white space, and the result
    neither starts nor ends with white space.  One call is made.  The text
    [ Clear skies expected. ] gives [Clear skies expected.]. *)
Theorem generate_summary_returns_trimmed (self : OpenAISummaryService)
    (rt : string) (d : Py.dict) (r : response) (c : choice)
    (rest : list choice) (t : string) :
  api_key self <> EmptyString ->
  client self (summary_request self rt d) = Return (Some r) ->
  choices r = c :: rest ->
  content (choice_message c) = Some t ->
  snd (generate_summary self rt d) = Return (Some (Py.strip t))
  /\ (exists l r', t = l ++ Py.strip t ++ r'
                   /\ Py.all_space l = true /\ Py.all_space r' = true)
  /\ Py.starts_space (Py.strip t) = false
  /\ Py.ends_space (Py.strip t) = false
  /\ remote_calls (fst (generate_summary self rt d))
     = [summary_request self rt d]
  /\ snd (generate_summary
            (service_with "sk-live"
               (Return (Some (one_choice (Some " Clear skies expected. ")))))
            "metar" [])
     = Return (Some "Clear skies expected.").
Proof.
  intros K R C T. rewrite (generate_summary_configured self rt d K).
  cbv zeta. rewrite R. destruct r as [cs]. simpl in C. subst cs. rewrite T.
  destruct (strip_split t) as (l & r' & E & Al & Ar & Ns & Ne).
  split; [reflexivity|].
  split; [exists l, r'; auto|].
  repeat split; assumption.
Qed.

Lemma generate_summary_returns_trimmed_witness :
  snd (generate_summary
         (service_with "sk-live"
            (Return (Some (one_choice (Some " Clear skies expected. ")))))
         "taf" [("station", Py.VStr "KSEA")])
  = Return (Some (Py.strip " Clear skies expected. ")).
Proof.
  apply (generate_summary_returns_trimmed
           (service_with "sk-live"
              (Return (Some (one_choice (Some " Clear skies expected. ")))))
           "taf" [("station", Py.VStr "KSEA")]
           (one_choice (Some " Clear skies expected. "))
           {| choice_message := {| content := Some " Clear skies expected. " |} |}
           [] " Clear skies expected. ").
  - discriminate.
  - reflexivity.
  - reflexivity.
  - reflexivity.
Defined.

(** With a credential, when the remote call returns no response object or
    a response whose list of choices is empty, [generate_summary] logs the
    warning and returns [None]. *)
Lemma generate_summary_no_choices (self : OpenAISummaryService)
    (rt : string) (d : Py.dict) (resp : option response) :
  api_key self <> EmptyString ->
  client self (summary_request self rt d) = Return resp ->
  (forall r, resp = Some r -> choices r = []) ->
  snd (generate_summary self rt d) = Return None.
Proof.
  intros K R E. rewrite (generate_summary_configured self rt d K). cbv zeta.
  rewrite R. destruct resp as [[cs]|]; [|reflexivity].
  specialize (E _ eq_refl). simpl in E. subst cs. reflexivity.
Qed.

(** C2.  The code where the claim fails.  With a credential, when the remote
    call returns a response whose first choice has the empty text, the guard
    on the list of choices lets it through: [generate_summary] logs success
    and returns the empty string, where the claim, the docstring and the
    no-content branch say [None]. *)
Theorem generate_summary_empty_text (self : OpenAISummaryService)
    (rt : string) (d : Py.dict) (r : response) (c : choice)
    (rest : list choice) :
  api_key self <> EmptyString ->
  client self (summary_request self rt d) = Return (Some r) ->
  choices r = c :: rest ->
  content (choice_message c) = Some EmptyString ->
  generate_summary self rt d =
    ([Log INFO (Generating rt (model self));
      Create (summary_request self rt d);
      Log INFO (Generated rt)],
     Return (Some EmptyString))
  /\ snd (generate_summary self rt d) <> Return None.
Proof.
  intros K R C T. rewrite (generate_summary_configured self rt d K).
  cbv zeta. rewrite R. destruct r as [cs]. simpl in C. subst cs. rewrite T.
  split; [reflexivity | discriminate].
Qed.

Lemma generate_summary_empty_text_witness :
  snd (generate_summary
         (service_with "sk-live"
            (Return (Some (one_choice (Some EmptyString)))))
         "metar" [("station", Py.VStr "KSEA")])
  <> Return None.
Proof.
  apply (generate_summary_empty_text
           (service_with "sk-live"
              (Return (Some (one_choice (Some EmptyString)))))
           "metar" [("station", Py.VStr "KSEA")]
           (one_choice (Some EmptyString))
           {| choice_message := {| content := Some EmptyString |} |} []).
  - discriminate.
  - reflexivity.
  - reflexivity.
  - reflexivity.
Defined.

(** ** Construction *)

(** C8.  The constructor takes the credential from the explicit argument,
    else from the environment variable [OPENAI_API_KEY], else from the
    settings field [OPENAI_API_KEY]; a resolved credential that is missing,
    empty or begins with [sk-your-] is stored as the empty string, and any
    other is stored as it is and handed to the client. *)
Theorem init_credential (connect : string -> AsyncOpenAI) (env : environ)
    (settings : Settings) (arg : option string) :
  let from_env := environ_get env "OPENAI_API_KEY" in
  let resolved := resolve_key env settings arg in
  let self := __init__ connect env settings arg in
  (forall k, arg = Some k -> k <> EmptyString -> resolved = Some k)
  /\ (forall k, Py.truthy arg = false -> from_env = Some k ->
        k <> EmptyString -> resolved = Some k)
  /\ (Py.truthy arg = false -> Py.truthy from_env = false ->
        resolved = OPENAI_API_KEY settings)
  /\ (Py.truthy resolved = false -> api_key self = EmptyString)
  /\ (forall k, resolved = Some k -> Py.startswith k "sk-your-" = true ->
        api_key self = EmptyString)
  /\ (forall k, resolved = Some k -> k <> EmptyString ->
        Py.startswith k "sk-your-" = false -> api_key self = k)
  /\ client self = connect (api_key self)
  /\ model self = "gpt-4o".
Proof.
  cbv zeta. unfold __init__, resolve_key, Py.or_.
  split.
  { intros k -> K. rewrite (truthy_nonempty k K). cbn iota.
    rewrite (truthy_nonempty k K). reflexivity. }
  split.
  { intros k -> -> K. rewrite (truthy_nonempty k K). reflexivity. }
  split.
  { intros -> ->. reflexivity. }
  set (resolved := if Py.truthy (if Py.truthy arg then arg else _) then _ else _).
  split.
  { destruct resolved as [[|c k]|]; simpl; intros T;
      [reflexivity|discriminate|reflexivity]. }
  split.
  { intros k -> P. rewrite P. rewrite orb_true_r. reflexivity. }
  split.
  { intros k -> K P. rewrite P, (truthy_nonempty k K). reflexivity. }
  split; reflexivity.
Qed.

Lemma init_credential_witness :
  api_key (__init__ (fun _ _ => Raise (Exception "APIConnectionError" "down"))
             [("OPENAI_API_KEY", "sk-env")]
             {| OPENAI_API_KEY := Some "sk-settings" |}
             (Some "sk-arg")) = "sk-arg"
  /\ api_key (__init__ (fun _ _ => Raise (Exception "APIConnectionError" "down"))
                [("OPENAI_API_KEY", "sk-env")]
                {| OPENAI_API_KEY := Some "sk-settings" |}
                None) = "sk-env"
  /\ api_key (__init__ (fun _ _ => Raise (Exception "APIConnectionError" "down"))
                [("HOME", "/root")]
                {| OPENAI_API_KEY := Some "sk-your-api-key-here" |}
                None) = EmptyString.
Proof.
  split; [|split].
  - apply (init_credential
             (fun _ _ => Raise (Exception "APIConnectionError" "down"))
             [("OPENAI_API_KEY", "sk-env")]
             {| OPENAI_API_KEY := Some "sk-settings" |} (Some "sk-arg")
           : _ /\ _ /\ _ /\ _ /\ _ /\ _) with (k := "sk-arg");
      [reflexivity|discriminate|reflexivity].
  - reflexivity.
  - reflexivity.
Defined.

(** ** Further properties of [generate_summary] *)

(** X1.  With a credential, when the first choice of the response has no
    text ([content] is [None]), trimming fails inside the [try] block: the
    failure is caught, logged as an error, and the fallback text is
    returned. *)
Theorem generate_summary_none_content (self : OpenAISummaryService)
    (rt : string) (d : Py.dict) (r : response) (c : choice)
    (rest : list choice) :
  api_key self <> EmptyString ->
  client self (summary_request self rt d) = Return (Some r) ->
  choices r = c :: rest ->
  content (choice_message c) = None ->
  generate_summary self rt d =
    ([Log INFO (Generating rt (model self));
      Create (summary_request self rt d);
      Log ERROR (ErrorGenerating rt
                   (Exception "AttributeError"
                      "'NoneType' object has no attribute 'strip'"))],
     Return (Some (_generate_fallback_summary rt d))).
Proof.
  intros K R C T. rewrite (generate_summary_configured self rt d K).
  cbv zeta. rewrite R. destruct r as [cs]. simpl in C. subst cs. rewrite T.
  reflexivity.
Qed.

Lemma generate_summary_none_content_witness :
  snd (generate_summary
         (service_with "sk-live" (Return (Some (one_choice None))))
         "pirep" [("location", Py.VStr "KDEN")])
  = Return (Some (_generate_fallback_summary "pirep"
                    [("location", Py.VStr "KDEN")])).
Proof.
  rewrite (generate_summary_none_content
             (service_with "sk-live" (Return (Some (one_choice None))))
             "pirep" [("location", Py.VStr "KDEN")]
             (one_choice None) {| choice_message := {| content := None |} |} []).
  - reflexivity.
  - discriminate.
  - reflexivity.
  - reflexivity.
  - reflexivity.
Defined.

(** X2.  For every answer of the client, a returned response (or [None])
    or a raised instance of [Exception], the value [generate_summary] gives
    back is [None], the fallback text, or the trimmed text of the first
    choice of the returned response.  What [except Exception] does not catch,
    such as a cancellation at the [await], is no answer of the client and is
    outside this statement. *)
Theorem generate_summary_outcomes (self : OpenAISummaryService)
    (rt : string) (d : Py.dict) (answer : outcome (option response)) :
  client self (summary_request self rt d) = answer ->
  snd (generate_summary self rt d) = Return None
  \/ snd (generate_summary self rt d)
     = Return (Some (_generate_fallback_summary rt d))
  \/ exists r c rest t,
       answer = Return (Some r)
       /\ choices r = c :: rest
       /\ content (choice_message c) = Some t
       /\ snd (generate_summary self rt d) = Return (Some (Py.strip t)).
Proof.
  intros R.
  destruct (api_key self) as [|a k] eqn:K.
  - left. unfold generate_summary. rewrite K. reflexivity.
  - assert (K' : api_key self <> EmptyString) by (rewrite K; discriminate).
    rewrite (generate_summary_configured self rt d K'). cbv zeta.
    rewrite R. destruct answer as [[[[|c rest]]|]|e].
    + left; reflexivity.
    + destruct (content (choice_message c)) as [t|] eqn:T.
      * right; right. exists {| choices := c :: rest |}, c, rest, t.
        repeat split; assumption.
      * right; left; reflexivity.
    + left; reflexivity.
    + right; left; reflexivity.
Qed.

Lemma generate_summary_outcomes_witness :
  snd (generate_summary
         (service_with "sk-live" (Raise (Exception "RateLimitError" "429")))
         "taf" [("station", Py.VStr "KSEA")]) = Return None
  \/ snd (generate_summary
            (service_with "sk-live" (Raise (Exception "RateLimitError" "429")))
            "taf" [("station", Py.VStr "KSEA")])
     = Return (Some (_generate_fallback_summary "taf"
                       [("station", Py.VStr "KSEA")]))
  \/ exists r c rest t,
       Raise (Exception "RateLimitError" "429") = Return (Some r)
       /\ choices r = c :: rest
       /\ content (choice_message c) = Some t
       /\ snd (generate_summary
                 (service_with "sk-live"
                    (Raise (Exception "RateLimitError" "429")))
                 "taf" [("station", Py.VStr "KSEA")])
          = Return (Some (Py.strip t)).
Proof.
  apply (generate_summary_outcomes
           (service_with "sk-live" (Raise (Exception "RateLimitError" "429")))
           "taf" [("station", Py.VStr "KSEA")]
           (Raise (Exception "RateLimitError" "429"))).
  reflexivity.
Defined.

(** X3.  With a credential, every run sends exactly one request, whatever
    the client answers: the service's model, the system instruction and then
    the user instruction, temperature 0.3 and at most 600 tokens. *)
Theorem generate_summary_one_request (self : OpenAISummaryService)
    (rt : string) (d : Py.dict) :
  api_key self <> EmptyString ->
  remote_calls (fst (generate_summary self rt d)) =
    [ {| req_model := model self;
         req_messages := [("system", _get_system_prompt rt);
                          ("user", _create_prompt_for_report rt d)];
         req_temperature := (3 # 10)%Q;
         req_max_tokens := 600%Z |} ].
Proof.
  intros K. rewrite (generate_summary_configured self rt d K). cbv zeta.
  destruct (client self (summary_request self rt d)) as [[[[|c rest]]|]|e];
    try reflexivity.
  destruct (content (choice_message c)); reflexivity.
Qed.

Lemma generate_summary_one_request_witness :
  List.length
    (remote_calls
       (fst (generate_summary
               (service_with "sk-live" (Return None)) "taf" []))) = 1.
Proof.
  rewrite (generate_summary_one_request
             (service_with "sk-live" (Return None)) "taf" []).
  - reflexivity.
  - discriminate.
Defined.

(** X4.  A run that returns [None] has logged a warning and no error; a run
    that has logged an error returns the fallback text. *)
Theorem generate_summary_log_levels (self : OpenAISummaryService)
    (rt : string) (d : Py.dict) :
  (snd (generate_summary self rt d) = Return None ->
     (exists m, In (Log WARNING m) (fst (generate_summary self rt d)))
     /\ forall m, ~ In (Log ERROR m) (fst (generate_summary self rt d)))
  /\ ((exists m, In (Log ERROR m) (fst (generate_summary self rt d))) ->
        snd (generate_summary self rt d)
        = Return (Some (_generate_fallback_summary rt d))).
Proof.
  destruct (api_key self) as [|a k] eqn:K.
  - unfold generate_summary. rewrite K. simpl. split.
    + intros _. split; [eexists; left; reflexivity|].
      intros m [H|[]]; discriminate.
    + intros [m [H|[]]]; discriminate.
  - assert (K' : api_key self <> EmptyString) by (rewrite K; discriminate).
    rewrite (generate_summary_configured self rt d K'). cbv zeta.
    destruct (client self (summary_request self rt d))
      as [[[[|c rest]]|]|e]; [| destruct (content (choice_message c)) | |];
      simpl; split;
      try (intros H; discriminate H);
      try (intros _; split;
           [eexists; right; right; left; reflexivity
           |intros m [H|[H|[H|[]]]]; discriminate]);
      try (intros [m [H|[H|[H|[]]]]]; discriminate);
      try (intros _; reflexivity).
Qed.

Lemma generate_summary_log_levels_witness :
  exists m,
    In (Log WARNING m)
       (fst (generate_summary
               (service_with "sk-live" (Return (Some {| choices := [] |})))
               "metar" [])).
Proof.
  apply (proj1 (generate_summary_log_levels
                  (service_with "sk-live" (Return (Some {| choices := [] |})))
                  "metar" [])).
  reflexivity.
Defined.

(** ** Further properties of the template builders *)

Lemma list_ascii_app (a b : string) :
  list_ascii_of_string (a ++ b)
  = (list_ascii_of_string a ++ list_ascii_of_string b)%list.
Proof. induction a as [|x a IH]; simpl; [reflexivity | now rewrite IH]. Qed.

Lemma list_ascii_inj (a b : string) :
  list_ascii_of_string a = list_ascii_of_string b -> a = b.
Proof.
  intros H. rewrite <- (string_of_list_ascii_of_string a),
    <- (string_of_list_ascii_of_string b). now rewrite H.
Qed.

Lemma sapp_inv_head (a b c : string) : a ++ b = a ++ c -> b = c.
Proof.
  intros H. apply list_ascii_inj.
  apply (f_equal list_ascii_of_string) in H. rewrite !list_ascii_app in H.
  exact (app_inv_head _ _ _ H).
Qed.

Lemma sapp_inv_tail (a b c : string) : a ++ c = b ++ c -> a = b.
Proof.
  intros H. apply list_ascii_inj.
  apply (f_equal list_ascii_of_string) in H. rewrite !list_ascii_app in H.
  exact (app_inv_tail _ _ _ H).
Qed.

(** For a known kind the user instruction is a fixed text around the
    rendered [raw_text] field. *)
Lemma user_prompt_shape (rt : string) (d : Py.dict) :
  In rt known_kinds ->
  exists pre post,
    forall d', Py.lookup d' "station" = Py.lookup d "station" ->
      _create_prompt_for_report rt d' =
        pre ++ Py.str (Py.get d' "raw_text" "No raw data available") ++ post.
Proof.
  intros H. known_cases H; pick_branch _create_prompt_for_report.
  - exists ("Create a detailed, pilot-friendly analysis of this METAR for "
            ++ Py.str (Py.get d "station" "unknown station") ++ ":" ++ LF
            ++ "Raw METAR: ").
    eexists. intros d' E. unfold Py.get at 1 3. rewrite E.
    rewrite !sapp_assoc. reflexivity.
  - exists ("Create a detailed, pilot-friendly analysis of this TAF forecast for "
            ++ Py.str (Py.get d "station" "unknown station") ++ ":" ++ LF
            ++ "Raw TAF: ").
    eexists. intros d' E. unfold Py.get at 1 3. rewrite E.
    rewrite !sapp_assoc. reflexivity.
  - exists ("Create a detailed, pilot-friendly analysis of this Pilot Report:"
            ++ LF ++ "Raw PIREP: ").
    eexists. intros d' E. reflexivity.
  - exists ("Create a detailed, pilot-friendly analysis of this SIGMET:"
            ++ LF ++ "Raw SIGMET: ").
    eexists. intros d' E. reflexivity.
Qed.

(** X5.  The fallback text reads the mapping only through [station] and
    [location]: two mappings that agree on both keys get the same text for
    every report type, and a type other than [metar], [taf] and [pirep] gets
    the same text for any two mappings. *)
Theorem fallback_reads_station_location (rt : string) (d d' : Py.dict) :
  (Py.lookup d "station" = Py.lookup d' "station" ->
   Py.lookup d "location" = Py.lookup d' "location" ->
   _generate_fallback_summary rt d = _generate_fallback_summary rt d')
  /\ (~ In rt ["metar"; "taf"; "pirep"] ->
      _generate_fallback_summary rt d = _generate_fallback_summary rt d').
Proof.
  unfold _generate_fallback_summary, Py.get. split.
  - intros -> ->. reflexivity.
  - intros H.
    destruct (String.eqb_spec rt "metar") as [->|_]; [elim H; simpl; auto|].
    destruct (String.eqb_spec rt "taf") as [->|_]; [elim H; simpl; auto|].
    destruct (String.eqb_spec rt "pirep") as [->|_]; [elim H; simpl; auto|].
    reflexivity.
Qed.

Lemma fallback_reads_station_location_witness :
  _generate_fallback_summary "metar"
    [("station", Py.VStr "KSEA"); ("raw_text", Py.VStr "KSEA 041753Z")]
  = _generate_fallback_summary "metar"
      [("wind", Py.VInt 12); ("station", Py.VStr "KSEA")].
Proof.
  apply (proj1 (fallback_reads_station_location "metar"
    [("station", Py.VStr "KSEA"); ("raw_text", Py.VStr "KSEA 041753Z")]
    [("wind", Py.VInt 12); ("station", Py.VStr "KSEA")])); reflexivity.
Defined.

(** X6.  For a known kind the user instruction reads the mapping only
    through [station] and [raw_text]; for [pirep] and [sigmet] only through
    [raw_text]. *)
Theorem user_prompt_reads_station_raw_text (rt : string) (d d' : Py.dict) :
  (In rt known_kinds ->
   Py.lookup d "station" = Py.lookup d' "station" ->
   Py.lookup d "raw_text" = Py.lookup d' "raw_text" ->
   _create_prompt_for_report rt d = _create_prompt_for_report rt d')
  /\ (In rt ["pirep"; "sigmet"] ->
      Py.lookup d "raw_text" = Py.lookup d' "raw_text" ->
      _create_prompt_for_report rt d = _create_prompt_for_report rt d').
Proof.
  split.
  - intros H S R. known_cases H; pick_branch _create_prompt_for_report;
      unfold Py.get; rewrite ?S, ?R; reflexivity.
  - intros H R. simpl in H. destruct H as [H|[H|[]]]; subst;
      pick_branch _create_prompt_for_report; unfold Py.get; rewrite R;
      reflexivity.
Qed.

Lemma user_prompt_reads_station_raw_text_witness :
  _create_prompt_for_report "sigmet"
    [("station", Py.VStr "KSEA"); ("raw_text", Py.VStr "CONVECTIVE SIGMET 12C")]
  = _create_prompt_for_report "sigmet"
      [("raw_text", Py.VStr "CONVECTIVE SIGMET 12C"); ("valid", Py.VBool true)].
Proof.
  apply (proj2 (user_prompt_reads_station_raw_text "sigmet"
    [("station", Py.VStr "KSEA"); ("raw_text", Py.VStr "CONVECTIVE SIGMET 12C")]
    [("raw_text", Py.VStr "CONVECTIVE SIGMET 12C"); ("valid", Py.VBool true)]));
    [simpl; auto | reflexivity].
Defined.

(** X7.  For a known kind the user instruction keeps the raw report apart:
    two mappings with the same [station] whose instructions are equal have
    the same rendered [raw_text] field, so reports that differ in their raw
    text get different instructions. *)
Theorem user_prompt_determines_raw_text (rt : string) (d d' : Py.dict) :
  In rt known_kinds ->
  Py.lookup d "station" = Py.lookup d' "station" ->
  _create_prompt_for_report rt d = _create_prompt_for_report rt d' ->
  Py.str (Py.get d "raw_text" "No raw data available")
  = Py.str (Py.get d' "raw_text" "No raw data available").
Proof.
  intros H S E.
  destruct (user_prompt_shape rt d H) as (pre & post & G).
  rewrite (G d eq_refl), (G d' (eq_sym S)) in E.
  apply sapp_inv_head in E. exact (sapp_inv_tail _ _ _ E).
Qed.

Lemma user_prompt_determines_raw_text_witness :
  _create_prompt_for_report "taf" [("raw_text", Py.VStr "TAF KSEA 041720Z")]
  <> _create_prompt_for_report "taf" [("raw_text", Py.VStr "TAF KSEA 042320Z")].
Proof.
  intros E.
  pose proof (user_prompt_determines_raw_text "taf"
                [("raw_text", Py.VStr "TAF KSEA 041720Z")]
                [("raw_text", Py.VStr "TAF KSEA 042320Z")]
                (or_intror (or_introl eq_refl)) eq_refl E) as H.
  discriminate H.
Defined.




(** X9.  For every report type, known or not, the system instruction starts
    with the persona preamble and is one of five texts: that of [metar],
    [taf], [pirep], [sigmet] or the generic one. *)
Theorem system_prompt_any_kind (rt : string) :
  Py.startswith (_get_system_prompt rt)
    "You are an expert aviation weather briefing assistant providing detailed, accurate summaries for pilots. Your summaries should be comprehensive yet clear, focusing on operational impact and flight safety. "
  = true
  /\ In (_get_system_prompt rt)
       (map _get_system_prompt ["metar"; "taf"; "pirep"; "sigmet"; "generic"]).
Proof.
  destruct (String.eqb_spec rt "metar") as [->|N1];
    [split; [vm_compute; reflexivity | left; reflexivity]|].
  destruct (String.eqb_spec rt "taf") as [->|N2];
    [split; [vm_compute; reflexivity | right; left; reflexivity]|].
  destruct (String.eqb_spec rt "pirep") as [->|N3];
    [split; [vm_compute; reflexivity | do 2 right; left; reflexivity]|].
  destruct (String.eqb_spec rt "sigmet") as [->|N4];
    [split; [vm_compute; reflexivity | do 3 right; left; reflexivity]|].
  assert (G : _get_system_prompt rt = _get_system_prompt "generic").
  { apply String.eqb_neq in N1, N2, N3, N4.
    unfold _get_system_prompt. rewrite N1, N2, N3, N4. reflexivity. }
  rewrite G. split; [vm_compute; reflexivity | do 4 right; left; reflexivity].
Qed.

(** ** Further properties of the constructor *)

Lemma placeholder_nonempty (k : string) :
  Py.startswith k "sk-your-" = true -> k <> EmptyString.
Proof. intros H ->. discriminate H. Qed.

(** The stored key is empty exactly when the resolved credential is
    missing, empty or a placeholder. *)
Lemma init_key_empty_iff (connect : string -> AsyncOpenAI) (env : environ)
    (settings : Settings) (arg : option string) :
  api_key (__init__ connect env settings arg) = EmptyString <->
  (Py.truthy (resolve_key env settings arg) = false
   \/ exists k, resolve_key env settings arg = Some k
                /\ Py.startswith k "sk-your-" = true).
Proof.
  unfold __init__. cbn [api_key].
  destruct (resolve_key env settings arg) as [k|]; [|split; auto].
  destruct k as [|a k]; [split; auto|].
  cbn [Py.truthy negb orb].
  destruct (Py.startswith (String a k) "sk-your-") eqn:P; split.
  - intros _. right. exists (String a k). auto.
  - reflexivity.
  - discriminate.
  - intros [H|(k' & E & P')]; [discriminate|].
    injection E as <-. rewrite P in P'. discriminate.
Qed.

(** X10.  Whatever the argument, the environment and the settings, the
    constructor never stores a key that begins with [sk-your-]: the stored
    key is empty or it is the resolved credential, and the client is built
    with the stored key. *)
Theorem init_never_stores_placeholder (connect : string -> AsyncOpenAI)
    (env : environ) (settings : Settings) (arg : option string) :
  Py.startswith (api_key (__init__ connect env settings arg)) "sk-your-"
  = false
  /\ (api_key (__init__ connect env settings arg) = EmptyString
      \/ resolve_key env settings arg
         = Some (api_key (__init__ connect env settings arg)))
  /\ client (__init__ connect env settings arg)
     = connect (api_key (__init__ connect env settings arg)).
Proof.
  unfold __init__. cbn [api_key client].
  destruct (resolve_key env settings arg) as [k|];
    [|repeat split; left; reflexivity].
  destruct k as [|a k]; [repeat split; left; reflexivity|].
  cbn [Py.truthy negb orb].
  destruct (Py.startswith (String a k) "sk-your-") eqn:P.
  - repeat split. left; reflexivity.
  - repeat split; [exact P | right; reflexivity].
Qed.

(** X11.  The explicit argument at its edges.  An empty string counts as
    no argument: the environment and the settings decide.  A placeholder
    argument is not passed over: it is the resolved credential, so the stored
    key is empty even when the environment or the settings hold a usable
    one. *)
Theorem init_explicit_argument_edges (connect : string -> AsyncOpenAI)
    (env : environ) (settings : Settings) :
  __init__ connect env settings (Some EmptyString)
  = __init__ connect env settings None
  /\ forall k, Py.startswith k "sk-your-" = true ->
       api_key (__init__ connect env settings (Some k)) = EmptyString.
Proof.
  split; [reflexivity|].
  intros k P. apply init_key_empty_iff. right. exists k. split; [|exact P].
  unfold resolve_key, Py.or_.
  rewrite (truthy_nonempty k (placeholder_nonempty k P)). cbn iota.
  rewrite (truthy_nonempty k (placeholder_nonempty k P)). reflexivity.
Qed.

Lemma init_explicit_argument_edges_witness :
  api_key (__init__ (fun _ _ => Return None)
             [("OPENAI_API_KEY", "sk-env")]
             {| OPENAI_API_KEY := Some "sk-settings" |}
             (Some "sk-your-api-key-here")) = EmptyString.
Proof.
  apply (proj2 (init_explicit_argument_edges (fun _ _ => Return None)
                  [("OPENAI_API_KEY", "sk-env")]
                  {| OPENAI_API_KEY := Some "sk-settings" |})).
  reflexivity.
Defined.

(** X12.  A service constructed from a missing, empty or placeholder
    credential answers every request with [None]: it logs the warning and
    never calls the client it was built with. *)
Theorem init_unusable_key_short_circuits (connect : string -> AsyncOpenAI)
    (env : environ) (settings : Settings) (arg : option string)
    (rt : string) (d : Py.dict) :
  (Py.truthy (resolve_key env settings arg) = false
   \/ exists k, resolve_key env settings arg = Some k
                /\ Py.startswith k "sk-your-" = true) ->
  generate_summary (__init__ connect env settings arg) rt d
  = ([Log WARNING KeyNotConfigured], Return None).
Proof.
  intros H. apply init_key_empty_iff with (connect := connect) in H.
  unfold generate_summary. rewrite H. reflexivity.
Qed.

Lemma init_unusable_key_short_circuits_witness :
  generate_summary
    (__init__ (fun _ _ => Return (Some (one_choice (Some "VFR"))))
       [("HOME", "/root")]
       {| OPENAI_API_KEY := Some "sk-your-api-key-here" |} None)
    "metar" [("station", Py.VStr "KSEA")]
  = ([Log WARNING KeyNotConfigured], Return None).
Proof.
  apply (init_unusable_key_short_circuits
           (fun _ _ => Return (Some (one_choice (Some "VFR"))))
           [("HOME", "/root")]
           {| OPENAI_API_KEY := Some "sk-your-api-key-here" |} None).
  right. exists "sk-your-api-key-here". split; reflexivity.
Defined.

(** X13.  A service constructed from a usable credential sends, for every
    report, one request for the model [gpt-4o], and sends it to the client
    built with that credential: the outcome is read off that client's
    answer. *)
Theorem init_usable_key_requests (connect : string -> AsyncOpenAI)
    (env : environ) (settings : Settings) (arg : option string)
    (k rt : string) (d : Py.dict) :
  resolve_key env settings arg = Some k ->
  k <> EmptyString ->
  Py.startswith k "sk-your-" = false ->
  let self := __init__ connect env settings arg in
  let req :=
    {| req_model := "gpt-4o";
       req_messages := [("system", _get_system_prompt rt);
                        ("user", _create_prompt_for_report rt d)];
       req_temperature := (3 # 10)%Q;
       req_max_tokens := 600%Z |} in
  remote_calls (fst (generate_summary self rt d)) = [req]
  /\ (forall e, connect k req = Raise e ->
        snd (generate_summary self rt d)
        = Return (Some (_generate_fallback_summary rt d)))
  /\ (forall c rest t,
        connect k req = Return (Some {| choices := c :: rest |}) ->
        content (choice_message c) = Some t ->
        snd (generate_summary self rt d) = Return (Some (Py.strip t))).
Proof.
  intros R K P. cbv zeta.
  assert (E : __init__ connect env settings arg
              = {| api_key := k; client := connect k; model := "gpt-4o" |}).
  { unfold __init__. rewrite R, P, (truthy_nonempty k K). reflexivity. }
  rewrite E.
  rewrite (generate_summary_configured
             {| api_key := k; client := connect k; model := "gpt-4o" |}
             rt d K).
  cbv zeta. unfold summary_request. cbn [client model api_key].
  split.
  - destruct (connect k _) as [[[[|c rest]]|]|e]; try reflexivity.
    destruct (content (choice_message c)); reflexivity.
  - split.
    + intros e ->. reflexivity.
    + intros c rest t -> T. rewrite T. reflexivity.
Qed.

Lemma init_usable_key_requests_witness :
  snd (generate_summary
         (__init__ (fun _ _ => Return (Some (one_choice (Some " VFR "))))
            [("OPENAI_API_KEY", "sk-env")]
            {| OPENAI_API_KEY := None |} None)
         "metar" [("station", Py.VStr "KSEA")])
  = Return (Some "VFR").
Proof.
  refine (proj2 (proj2 (init_usable_key_requests
            (fun _ _ => Return (Some (one_choice (Some " VFR "))))
            [("OPENAI_API_KEY", "sk-env")]
            {| OPENAI_API_KEY := None |} None
            "sk-env" "metar" [("station", Py.VStr "KSEA")] _ _ _))
          {| choice_message := {| content := Some " VFR " |} |} []
          " VFR " _ _).
  - reflexivity.
  - discriminate.
  - reflexivity.
  - reflexivity.
  - reflexivity.
Defined.

(** X14.  The module's instance is built without an argument, so it is
    unconfigured exactly when neither the environment variable nor the
    settings field gives a usable key, the environment variable being looked
    at first. *)
Theorem openai_service_unconfigured_iff (connect : string -> AsyncOpenAI)
    (env : environ) (settings : Settings) :
  api_key (openai_service connect env settings) = EmptyString <->
  (Py.truthy (Py.or_ (environ_get env "OPENAI_API_KEY")
                     (OPENAI_API_KEY settings)) = false
   \/ exists k,
        Py.or_ (environ_get env "OPENAI_API_KEY") (OPENAI_API_KEY settings)
        = Some k
        /\ Py.startswith k "sk-your-" = true).
Proof.
  unfold openai_service. rewrite init_key_empty_iff. reflexivity.
Qed.

Lemma openai_service_unconfigured_iff_witness :
  api_key (openai_service (fun _ _ => Return None)
             [("OPENAI_API_KEY", "sk-your-key")]
             {| OPENAI_API_KEY := Some "sk-settings" |}) = EmptyString.
Proof.
  apply (proj2 (openai_service_unconfigured_iff (fun _ _ => Return None)
                  [("OPENAI_API_KEY", "sk-your-key")]
                  {| OPENAI_API_KEY := Some "sk-settings" |})).
  right. exists "sk-your-key". split; reflexivity.
Defined.
